(** * A shallow embedding of the NWS maubot plugin (src/weather/weather.py)

    Python [str] values are modelled as Rocq [string]s whose characters are
    the code points 0..255; a Python [dict] of observations as a stdpp
    [gmap]; exceptions as the [Err] branch of a small result monad; the
    mutable fields of the long-lived [NwsBot] object as an explicit state
    record threaded through the methods. *)

From Stdlib Require Import Ascii String List Arith Lia.
From stdpp Require Import base gmap strings.

Local Open Scope string_scope.

(** ** Python exceptions and the result monad *)

Inductive exn : Type :=
  | ParseError (msg : string)   (* xml.etree.ElementTree.ParseError *)
  | HttpError (msg : string).   (* any failure of [self.http.get] / [.text()] *)

Inductive result (A : Type) : Type :=
  | Ok (a : A)
  | Err (e : exn).
Arguments Ok {A} a.
Arguments Err {A} e.

Definition bind {A B} (m : result A) (k : A -> result B) : result B :=
  match m with
  | Ok a => k a
  | Err e => Err e
  end.


(** ** [str.strip()] *)

(** [str.isspace] restricted to the code points 0..255: tab, LF, VT, FF,
    CR, the separators 0x1C-0x1F, space, NEL (0x85) and NBSP (0xA0). *)
Definition is_py_space (c : ascii) : bool :=
  let n := nat_of_ascii c in
  (Nat.leb 9 n && Nat.leb n 13) || (Nat.leb 28 n && Nat.leb n 32)
  || Nat.eqb n 133 || Nat.eqb n 160.

Fixpoint lstrip_l (l : list ascii) : list ascii :=
  match l with
  | [] => []
  | c :: l' => if is_py_space c then lstrip_l l' else l
  end.

Definition strip_l (l : list ascii) : list ascii :=
  rev (lstrip_l (rev (lstrip_l l))).

(** [s.strip()] *)
Definition strip (s : string) : string :=
  string_of_list_ascii (strip_l (list_ascii_of_string s)).

(** ** Configuration *)

(** The plugin's configuration ([Config], copied keys [show_link],
    [default_location], [show_image], [default_units],
    [default_language]).  A string-valued entry is [None] when the YAML
    value is null or the key is absent: [self.config[name]] of mautrix's
    proxy config yields [None] in both cases. *)
Record config : Type := mkConfig {
  show_link : bool;
  default_location : option string;
  show_image : bool;
  default_units : option string;
  default_language : option string
}.

(** The string-valued keys read through [_config_value]. *)
Inductive str_key : Type :=
  | Kdefault_location
  | Kdefault_units
  | Kdefault_language.

(** [self.config[name]] for a string-valued key. *)
Definition config_getitem (cfg : config) (k : str_key) : option string :=
  match k with
  | Kdefault_location => default_location cfg
  | Kdefault_units => default_units cfg
  | Kdefault_language => default_language cfg
  end.

(** [_config_value] (lines 86-91). *)
Definition _config_value (cfg : config) (name : str_key) : string :=
  match config_getitem cfg name with
  | Some v => strip v
  | None => ""
  end.

(** ** The per-object mutable fields *)

Record nws_state : Type := mkState {
  _stored_language : string;
  _stored_location : string;
  _stored_units : string
}.

(** [_reset_stored_values] (lines 125-128). *)
Definition _reset_stored_values : nws_state := mkState "" "" "".

Definition set_stored_location (st : nws_state) (l : string) : nws_state :=
  mkState (_stored_language st) l (_stored_units st).

(** [_location(location)] (lines 93-103): returns the location and the
    updated object state.  The caller's default argument is [""]. *)
Definition _location (cfg : config) (location : string) (st : nws_state)
    : string * nws_state :=
  if String.eqb (_stored_location st) "" then
    let location := strip location in
    let v := strip (if String.eqb location "" then
                      _config_value cfg Kdefault_location
                    else location) in
    (v, set_stored_location st v)
  else (_stored_location st, st).

(** ** Python dicts with insertion order: [d[k] = v] *)

Fixpoint dict_set {V} (d : list (string * V)) (k : string) (v : V)
    : list (string * V) :=
  match d with
  | [] => [(k, v)]
  | (k', v') :: d' =>
      if String.eqb k k' then (k, v) :: d' else (k', v') :: dict_set d' k v
  end.

(** [_options] (lines 114-123). *)
Definition _options (st : nws_state) : list (string * string) :=
  let options := @nil (string * string) in
  let options := if String.eqb (_stored_language st) "" then options
                 else dict_set options "lang" (_stored_language st) in
  let options := if String.eqb (_stored_units st) "" then options
                 else dict_set options (_stored_units st) "" in
  options.

(** ** [str(yarl.URL(s))] *)

(** yarl requotes the string it is given: the ASCII letters and digits
    and the characters [-._~!$'()*,+&=;@:/?#] are kept; an escape [%XX]
    already present is kept with its hex digits in upper case; any other
    character (a ['%'] that starts no escape included) is UTF-8 encoded
    and each byte written [%XX].  yarl's removal of dot segments from the
    path is not modelled. *)
Definition yarl_safe_chars : string := "-._~!$'()*,+&=;@:/?#".

Definition yarl_keeps (c : ascii) : bool :=
  let n := nat_of_ascii c in
  (Nat.leb 48 n && Nat.leb n 57) || (Nat.leb 65 n && Nat.leb n 90)
  || (Nat.leb 97 n && Nat.leb n 122)
  || existsb (Ascii.eqb c) (list_ascii_of_string yarl_safe_chars).

Definition hex_digit (n : nat) : ascii :=
  ascii_of_nat (if Nat.ltb n 10 then 48 + n else 55 + n).

Definition pct_byte (b : nat) : string :=
  String "%" (String (hex_digit (b / 16)) (String (hex_digit (b mod 16)) "")).

Definition pct_char (c : ascii) : string :=
  let n := nat_of_ascii c in
  if Nat.ltb n 128 then pct_byte n
  else pct_byte (192 + n / 64) ++ pct_byte (128 + n mod 64).

Definition is_hex (c : ascii) : bool :=
  let n := nat_of_ascii c in
  (Nat.leb 48 n && Nat.leb n 57) || (Nat.leb 65 n && Nat.leb n 70)
  || (Nat.leb 97 n && Nat.leb n 102).

Definition hex_upper (c : ascii) : ascii :=
  let n := nat_of_ascii c in
  if Nat.leb 97 n && Nat.leb n 102 then ascii_of_nat (n - 32) else c.

Fixpoint yarl_str (s : string) : string :=
  match s with
  | EmptyString => ""
  | String c s' =>
      if Ascii.eqb c "%" then
        match s' with
        | String h1 (String h2 rest) =>
            if is_hex h1 && is_hex h2 then
              String "%" (String (hex_upper h1) (String (hex_upper h2) (yarl_str rest)))
            else pct_char c ++ yarl_str s'
        | _ => pct_char c ++ yarl_str s'
        end
      else (if yarl_keeps c then String c "" else pct_char c) ++ yarl_str s'
  end.

(** ** URL construction *)

(** The class attribute [_service_url] (line 28). *)
Definition _service_url : string := "https://w1.weather.gov/xml/current_obs".

(** [_base_url] (lines 83-84): [URL(f"{self._service_url}/{self._location()}.xml")]. *)
Definition _base_url (cfg : config) (st : nws_state) : string * nws_state :=
  let '(loc, st') := _location cfg "" st in
  (yarl_str (_service_url ++ "/" ++ loc ++ ".xml"), st').

(** [_url] (lines 130-131). *)
Definition _url (cfg : config) (st : nws_state) : string * nws_state :=
  _base_url cfg st.

(** ** Message formatting *)

Definition nl : string := String (ascii_of_nat 10) "".

(** [str(x)] of the result of [wxdata.get(key)]: a missing key and an
    element without text both give [None]. *)
Definition py_str (v : option (option string)) : string :=
  match v with
  | Some (Some s) => s
  | _ => "None"
  end.

(** The f-string of lines 59-66; each line but the last ends with a
    backslash (the source's [\\] before [\n]). *)
Definition wx_template (station_id location weather temperature_string
    relative_humidity wind_string dewpoint_string visibility_mi : string)
    : string :=
  "[" ++ station_id ++ "] Location: " ++ location ++ "\" ++ nl ++
  "Weather: " ++ weather ++ "\" ++ nl ++
  "Temperature: " ++ temperature_string ++ "\" ++ nl ++
  "Relative Humidity: " ++ relative_humidity ++ "\" ++ nl ++
  "Wind: " ++ wind_string ++ "\" ++ nl ++
  "Dew Point: " ++ dewpoint_string ++ "\" ++ nl ++
  "Visibility (miles): " ++ visibility_mi.

Definition wx_format (wxdata : gmap string (option string)) : string :=
  wx_template
    (py_str (wxdata !! "station_id")) (py_str (wxdata !! "location"))
    (py_str (wxdata !! "weather")) (py_str (wxdata !! "temperature_string"))
    (py_str (wxdata !! "relative_humidity")) (py_str (wxdata !! "wind_string"))
    (py_str (wxdata !! "dewpoint_string")) (py_str (wxdata !! "visibility_mi")).

(** [_message] (lines 105-112).  The unused [location_match] is dropped. *)
Definition _message (cfg : config) (st : nws_state) (content : string)
    : string * nws_state :=
  let message := content in
  if show_link cfg then
    let '(u, st') := _url cfg st in
    (message ++ nl ++ nl ++ "([weather.gov](" ++ u ++ "))", st')
  else (message, st).

(** ** XML documents as [xml.etree.ElementTree] gives them *)

(** An element: its [tag] (["{uri}local"] for a namespaced one), its
    attributes, its [text] (the character data before the first
    subelement, [None] when there is none), its subelements and its
    [tail].  Comments and processing instructions are dropped by the
    default tree builder and do not occur as children. *)
#[local] Set Warnings "-register-all".
Inductive element : Type :=
  | Elem (tag : string) (attrib : list (string * string))
         (text : option string) (children : list element)
         (tail : option string).

Definition el_tag (e : element) : string :=
  match e with Elem t _ _ _ _ => t end.
Definition el_text (e : element) : option string :=
  match e with Elem _ _ x _ _ => x end.
Definition el_children (e : element) : list element :=
  match e with Elem _ _ _ cs _ => cs end.

(** One iteration of the loop of [_parse_xml] (lines 142-147). *)
Definition parse_step (wxdict : gmap string (option string)) (child : element)
    : gmap string (option string) :=
  if String.eqb (el_tag child) "image" then wxdict
  else if String.eqb (el_tag child) "observation_time" then wxdict
  else <[el_tag child := el_text child]> wxdict.

(** The dictionary built from the root [tree] (lines 140-149). *)
Definition wx_of_root (tree : element) : gmap string (option string) :=
  foldl parse_step ∅ (el_children tree).

Section Pipeline.

(** [ET.fromstring]: the expat-based parser of the standard library,
    outside this repository.  [inl msg] is the error it raises as
    [ParseError msg] on text that is not well-formed XML. *)
Variable fromstring : string -> string + element.

(** [self.http.get(url)] followed by [response.text()]. *)
Variable http_get : string -> result string.

(** [_parse_xml] (lines 133-149). *)
Definition _parse_xml (xmldata : string) : result (gmap string (option string)) :=
  match fromstring xmldata with
  | inl msg => Err (ParseError msg)
  | inr tree => Ok (wx_of_root tree)
  end.

(** [weather_handler] (lines 47-67): the text it responds with.  [cfg] is
    the configuration while the request is built; [cfg'] the
    configuration when [_message] runs, after the two awaits during which
    the hosting runtime may reload it.  The [_stored_*] fields live on the
    long-lived plugin object; this model follows one invocation running
    alone, so another [!wx] interleaved at those awaits (which resets and
    re-resolves the same fields) is not represented. *)
Definition weather_handler (cfg cfg' : config) (location : string)
    : result string :=
  let st := _reset_stored_values in
  let '(_, st) := _location cfg location st in
  let '(u, st) := _url cfg st in
  bind (http_get u) (fun response_text =>
  bind (_parse_xml response_text) (fun wxdata =>
  let wxfmt := wx_format wxdata in
  Ok (fst (_message cfg' st wxfmt)))).

End Pipeline.

(** ** Descriptions used in the statements *)

(** The tags [_parse_xml] skips. *)
Definition is_skipped (k : string) : bool :=
  String.eqb k "image" || String.eqb k "observation_time".

(** The text of the last element of [cs] whose tag is [k], starting from
    [acc] when there is none. *)
Fixpoint last_text (k : string) (acc : option (option string))
    (cs : list element) : option (option string) :=
  match cs with
  | [] => acc
  | c :: cs' =>
      last_text k (if String.eqb (el_tag c) k then Some (el_text c) else acc) cs'
  end.

(** Number of lines of a string, as [len(s.split("\n"))]. *)
Fixpoint count_nl (s : string) : nat :=
  match s with
  | EmptyString => 0
  | String c s' => (if Ascii.eqb c (ascii_of_nat 10) then 1 else 0) + count_nl s'
  end.

Definition count_lines (s : string) : nat := S (count_nl s).

(** The eight fields the message template reads. *)
Definition wx_fields : list string :=
  ["station_id"; "location"; "weather"; "temperature_string";
   "relative_humidity"; "wind_string"; "dewpoint_string"; "visibility_mi"].

(** ** Concrete inputs *)

Definition cfg_default (show : bool) (dflt : option string) : config :=
  mkConfig show dflt false None None.

(** The observation record of the spec's formatting example. *)
Definition ksmp_record : gmap string (option string) :=
  list_to_map [("station_id", Some "KSMP"); ("location", Some "St. Paul");
               ("weather", Some "Fair"); ("temperature_string", Some "72F");
               ("relative_humidity", Some "40%"); ("wind_string", Some "Calm");
               ("dewpoint_string", Some "50F"); ("visibility_mi", Some "10")].

Definition leaf (tag : string) (text : option string) : element :=
  Elem tag [] text [] None.

(** The document of the spec's parsing example. *)
Definition ksmp_root : element :=
  Elem "current_observation" [] None
    [leaf "image" None; leaf "observation_time" (Some "Last Updated");
     leaf "station_id" (Some "KSMP"); leaf "weather" (Some "Fair")] None.

(** A stand-in for [ET.fromstring]: one well-formed document, every other
    text rejected the way expat rejects text that is not XML. *)
Definition demo_fromstring (s : string) : string + element :=
  if String.eqb s "<current_observation/>" then inr (Elem "current_observation" [] None [] None)
  else if String.eqb s "ksmp" then inr ksmp_root
  else inl "syntax error: line 1, column 0".

(** A stand-in for the HTTP client answering every URL with one body. *)
Definition demo_http_get (body : string) (url : string) : result string :=
  Ok body.

(** A stand-in for the HTTP client that answers one URL only. *)
Definition demo_http_get_at (at_url body : string) (url : string) : result string :=
  if String.eqb url at_url then Ok body else Err (HttpError "404 Not Found").

(** ** [strip] *)

Lemma lstrip_l_split (l : list ascii) :
  exists p, l = (p ++ lstrip_l l)%list.
Proof.
  induction l as [|c l IH]; simpl.
  - exists []. reflexivity.
  - destruct (is_py_space c).
    + destruct IH as [p Hp]. exists (c :: p). simpl. congruence.
    + exists []. reflexivity.
Qed.

Lemma lstrip_l_idem (l : list ascii) : lstrip_l (lstrip_l l) = lstrip_l l.
Proof.
  induction l as [|c l IH]; simpl; [reflexivity|].
  destruct (is_py_space c) eqn:E; [exact IH|]. simpl. rewrite E. reflexivity.
Qed.

Lemma lstrip_l_head (l : list ascii) c t :
  lstrip_l l = c :: t -> is_py_space c = false.
Proof.
  induction l as [|c' l IH]; simpl; [discriminate|].
  destruct (is_py_space c') eqn:E; [exact IH|].
  intros H. injection H as -> _. exact E.
Qed.

Lemma lstrip_l_nonspace_head c t :
  is_py_space c = false -> lstrip_l (c :: t) = c :: t.
Proof. intros E. simpl. rewrite E. reflexivity. Qed.

Lemma strip_l_idem (l : list ascii) : strip_l (strip_l l) = strip_l l.
Proof.
  unfold strip_l.
  set (x := lstrip_l l).
  destruct (lstrip_l_split (rev x)) as [p Hp].
  set (d := lstrip_l (rev x)) in *.
  assert (Hx : x = (rev d ++ rev p)%list).
  { rewrite <- rev_app_distr, <- Hp, rev_involutive. reflexivity. }
  assert (Hy : lstrip_l (rev d) = rev d).
  { destruct (rev d) as [|c t] eqn:Ed; [reflexivity|].
    apply lstrip_l_nonspace_head.
    apply (lstrip_l_head l c (t ++ rev p)).
    fold x. rewrite Hx. reflexivity. }
  rewrite Hy, rev_involutive.
  unfold d. rewrite lstrip_l_idem. reflexivity.
Qed.

Lemma strip_idem (s : string) : strip (strip s) = strip s.
Proof.
  unfold strip. rewrite list_ascii_of_string_of_list_ascii, strip_l_idem.
  reflexivity.
Qed.

Lemma strip_empty : strip "" = "".
Proof. reflexivity. Qed.

Example strip_example : strip (" KSMP" ++ nl) = "KSMP".
Proof. reflexivity. Qed.

(** ** Location resolution *)

(** What [_location] stores on a fresh state. *)
Lemma location_fresh (cfg : config) (raw : string) :
  _location cfg raw _reset_stored_values =
  (let v := if String.eqb (strip raw) "" then _config_value cfg Kdefault_location
            else strip raw in
   (v, set_stored_location _reset_stored_values v)).
Proof.
  unfold _location. simpl.
  destruct (String.eqb (strip raw) "") eqn:E.
  - unfold _config_value; simpl.
    destruct (default_location cfg); [rewrite strip_idem|]; reflexivity.
  - rewrite strip_idem. reflexivity.
Qed.

(** A second [_location()] under the same configuration changes nothing. *)
Lemma location_stable (cfg : config) (raw : string) (st : nws_state) :
  let '(l, st1) := _location cfg raw st in _location cfg "" st1 = (l, st1).
Proof.
  unfold _location at 1.
  destruct (String.eqb (_stored_location st) "") eqn:E.
  - cbv zeta.
    set (v := strip (if String.eqb (strip raw) "" then
                       _config_value cfg Kdefault_location else strip raw)).
    unfold _location; simpl.
    destruct (String.eqb v "") eqn:Ev; [|reflexivity].
    apply String.eqb_eq in Ev.
    assert (Hc : strip (_config_value cfg Kdefault_location) = "").
    { unfold v in Ev.
      destruct (String.eqb (strip raw) "") eqn:Er; [exact Ev|].
      rewrite strip_idem in Ev. rewrite Ev in Er. discriminate. }
    try rewrite strip_empty; simpl. rewrite Hc, Ev. reflexivity.
  - unfold _location. rewrite E. reflexivity.
Qed.

(** ** Claims on location resolution and URL construction *)

(** C2: on a fresh invocation the resolved location is the trimmed raw
    location when that is non-empty, whatever the configured default;
    otherwise it is the trimmed configured default ([""] when the default
    is null or absent). *)
Theorem location_resolution (cfg : config) (raw : string) :
  fst (_location cfg raw _reset_stored_values) =
  if String.eqb (strip raw) "" then
    match default_location cfg with Some d => strip d | None => "" end
  else strip raw.
Proof.
  rewrite location_fresh. simpl.
  destruct (String.eqb (strip raw) ""); reflexivity.
Qed.

(** C10: [_config_value] never fails: a null or absent entry reads as
    [""], any other entry as its value stripped; so with no
    [default_location] an empty raw location resolves to [""]. *)
Theorem config_value_total (cfg : config) (k : str_key) :
  (config_getitem cfg k = None -> _config_value cfg k = "") /\
  (forall v, config_getitem cfg k = Some v -> _config_value cfg k = strip v) /\
  (default_location cfg = None -> forall raw, strip raw = "" ->
     fst (_location cfg raw _reset_stored_values) = "").
Proof.
  unfold _config_value. split; [|split].
  - intros ->. reflexivity.
  - intros v ->. reflexivity.
  - intros Hd raw Hr. rewrite location_fresh. simpl.
    rewrite Hr. simpl. unfold _config_value. simpl. rewrite Hd. reflexivity.
Qed.

(** C1 (counterexample): with the option set [{lang: "en"}] and the
    location ["KSMP"], [_url] does not give the URL with [?lang=en]. *)
Lemma url_options_counterexample :
  _options (mkState "en" "KSMP" "") = [("lang", "en")] /\
  fst (_url (cfg_default false None) (mkState "en" "KSMP" ""))
    <> "https://w1.weather.gov/xml/current_obs/KSMP.xml?lang=en".
Proof.
  split; [reflexivity|]. vm_compute. discriminate.
Qed.

(** C1 (amended): the request URL is [str(URL(<service>/<location>.xml))]
    with no query string; the option set is never appended, and after
    resolution in an invocation it is empty anyway.  For ["KSMP"] the URL
    is [https://w1.weather.gov/xml/current_obs/KSMP.xml] whatever the
    stored language and units. *)
Theorem url_without_query (cfg : config) (st : nws_state) :
  fst (_url cfg st) =
    yarl_str (_service_url ++ "/" ++ fst (_location cfg "" st) ++ ".xml") /\
  (forall raw, _options (snd (_location cfg raw _reset_stored_values)) = []) /\
  (forall lang units, fst (_url cfg (mkState lang "KSMP" units)) =
     "https://w1.weather.gov/xml/current_obs/KSMP.xml").
Proof.
  split; [|split].
  - unfold _url, _base_url. destruct (_location cfg "" st). reflexivity.
  - intros raw. rewrite location_fresh. reflexivity.
  - intros lang units. reflexivity.
Qed.

(** C5 (code bug): the cache in [_location] uses [""] both for "not yet
    resolved" and for the resolved empty location.  When the first
    resolution gives [""], the [_location()] behind the link in
    [_message] resolves again from the configuration of that moment: the
    two resolutions differ, and the link names another URL than the one
    fetched. *)
Theorem location_resolved_twice_differs :
  let cfg := cfg_default true None in
  let cfg' := cfg_default true (Some "KSMP") in
  fst (_location cfg "" _reset_stored_values) = "" /\
  fst (_location cfg' "" (snd (_location cfg "" _reset_stored_values))) = "KSMP" /\
  weather_handler demo_fromstring
    (demo_http_get_at "https://w1.weather.gov/xml/current_obs/.xml" "ksmp")
    cfg cfg' "" =
  Ok (wx_format (wx_of_root ksmp_root) ++ nl ++ nl ++
      "([weather.gov](https://w1.weather.gov/xml/current_obs/KSMP.xml))").
Proof.
  split; [reflexivity|split; [reflexivity|]].
  vm_compute. reflexivity.
Qed.

(** ** Parsing *)

Lemma parse_step_lookup (m : gmap string (option string)) (c : element) (k : string) :
  parse_step m c !! k =
  if is_skipped k then m !! k
  else if String.eqb (el_tag c) k then Some (el_text c) else m !! k.
Proof.
  unfold parse_step, is_skipped.
  destruct (String.eqb_spec (el_tag c) "image") as [Hi|Hi].
  - rewrite Hi. destruct (String.eqb_spec k "image") as [->|Hk]; [reflexivity|].
    destruct (String.eqb_spec "image" k); [congruence|].
    destruct (String.eqb k "observation_time"); reflexivity.
  - destruct (String.eqb_spec (el_tag c) "observation_time") as [Ho|Ho].
    + rewrite Ho. destruct (String.eqb_spec k "image") as [->|Hk]; [reflexivity|].
      destruct (String.eqb_spec k "observation_time") as [->|Hk']; [reflexivity|].
      destruct (String.eqb_spec "observation_time" k); [congruence|]. reflexivity.
    + destruct (String.eqb_spec (el_tag c) k) as [<-|Hk].
      * rewrite lookup_insert_eq.
        destruct (String.eqb_spec (el_tag c) "image"); [congruence|].
        destruct (String.eqb_spec (el_tag c) "observation_time"); [congruence|].
        reflexivity.
      * rewrite lookup_insert_ne by exact Hk.
        destruct (_ || _); reflexivity.
Qed.

Lemma foldl_parse_step_lookup (cs : list element) :
  forall (m : gmap string (option string)) (k : string),
  foldl parse_step m cs !! k =
  if is_skipped k then m !! k else last_text k (m !! k) cs.
Proof.
  induction cs as [|c cs IH]; intros m k; simpl.
  - destruct (is_skipped k); reflexivity.
  - rewrite IH, parse_step_lookup.
    destruct (is_skipped k); reflexivity.
Qed.

Lemma wx_of_root_lookup (tree : element) (k : string) :
  wx_of_root tree !! k =
  if is_skipped k then None else last_text k None (el_children tree).
Proof.
  unfold wx_of_root. rewrite foldl_parse_step_lookup. reflexivity.
Qed.

Lemma last_text_source (k : string) (cs : list element) :
  forall acc v, last_text k acc cs = Some v ->
  acc = Some v \/ exists c, In c cs /\ el_tag c = k /\ el_text c = v.
Proof.
  induction cs as [|c cs IH]; intros acc v H; simpl in H.
  - left. exact H.
  - destruct (IH _ _ H) as [Ha|[c' [Hin Hc']]].
    + destruct (String.eqb_spec (el_tag c) k) as [Hk|Hk].
      * right. exists c. injection Ha as <-. simpl. auto.
      * left. exact Ha.
    + right. exists c'. simpl. auto.
Qed.

(** The handler once the request URL [u] is built from the state [st]. *)
Lemma weather_handler_eq fromstring http_get (cfg cfg' : config) (raw : string) :
  weather_handler fromstring http_get cfg cfg' raw =
  let st1 := snd (_location cfg raw _reset_stored_values) in
  bind (http_get (fst (_url cfg st1))) (fun response_text =>
  bind (_parse_xml fromstring response_text) (fun wxdata =>
  Ok (fst (_message cfg' (snd (_url cfg st1)) (wx_format wxdata))))).
Proof.
  unfold weather_handler.
  destruct (_location cfg raw _reset_stored_values) as [l st1].
  cbn zeta. cbn [snd]. destruct (_url cfg st1) as [u st2]. reflexivity.
Qed.

(** ** Claims on parsing *)

(** C3: parsing a document walks the direct children of the root, skips
    [image] and [observation_time], and maps every other tag to the text
    of its last occurrence; a root without children gives the empty
    mapping; the spec's four-child document gives exactly
    [{station_id: "KSMP", weather: "Fair"}]. *)
Theorem parse_xml_children fromstring (s : string) (root : element)
    (Hroot : fromstring s = inr root) :
  exists m, _parse_xml fromstring s = Ok m /\
  (forall k, m !! k =
     if is_skipped k then None else last_text k None (el_children root)) /\
  (el_children root = [] -> m = ∅) /\
  wx_of_root ksmp_root =
    <["station_id" := Some "KSMP"]> (<["weather" := Some "Fair"]> ∅).
Proof.
  exists (wx_of_root root). split; [|split; [|split]].
  - unfold _parse_xml. rewrite Hroot. reflexivity.
  - intros k. apply wx_of_root_lookup.
  - intros Hc. unfold wx_of_root. rewrite Hc. reflexivity.
  - vm_compute. reflexivity.
Qed.

Lemma parse_xml_children_witness :
  demo_fromstring "ksmp" = inr ksmp_root /\
  exists m, _parse_xml demo_fromstring "ksmp" = Ok m /\
  (forall k, m !! k =
     if is_skipped k then None else last_text k None (el_children ksmp_root)) /\
  (el_children ksmp_root = [] -> m = ∅) /\
  wx_of_root ksmp_root =
    <["station_id" := Some "KSMP"]> (<["weather" := Some "Fair"]> ∅).
Proof.
  split; [reflexivity|].
  apply (parse_xml_children demo_fromstring "ksmp" ksmp_root). reflexivity.
Defined.

(** C4: on text that is not well-formed XML the parser raises
    [ParseError] (the spec's [MalformedResponseError]) and the handler
    ends with it; [_parse_xml] only ever returns the record of a whole
    parsed document. *)
Theorem parse_xml_malformed fromstring http_get (cfg cfg' : config)
    (raw s msg : string)
    (Hget : http_get (fst (_url cfg (snd (_location cfg raw _reset_stored_values)))) = Ok s)
    (Hbad : fromstring s = inl msg) :
  _parse_xml fromstring s = Err (ParseError msg) /\
  weather_handler fromstring http_get cfg cfg' raw = Err (ParseError msg) /\
  (forall s' m, _parse_xml fromstring s' = Ok m ->
     exists tree, fromstring s' = inr tree /\ m = wx_of_root tree).
Proof.
  assert (Hp : _parse_xml fromstring s = Err (ParseError msg)).
  { unfold _parse_xml. rewrite Hbad. reflexivity. }
  split; [exact Hp|split].
  - rewrite weather_handler_eq. cbv zeta. rewrite Hget. cbn [bind].
    rewrite Hp. reflexivity.
  - intros s' m. unfold _parse_xml.
    destruct (fromstring s') as [e|tree]; [discriminate|].
    intros H. injection H as <-. exists tree. split; reflexivity.
Qed.

Lemma parse_xml_malformed_witness :
  demo_http_get "not xml"
    (fst (_url (cfg_default true None)
      (snd (_location (cfg_default true None) "KSMP" _reset_stored_values))))
    = Ok "not xml" /\
  demo_fromstring "not xml" = inl "syntax error: line 1, column 0" /\
  (_parse_xml demo_fromstring "not xml" =
     Err (ParseError "syntax error: line 1, column 0") /\
   weather_handler demo_fromstring (demo_http_get "not xml")
     (cfg_default true None) (cfg_default true None) "KSMP" =
     Err (ParseError "syntax error: line 1, column 0") /\
   (forall s' m, _parse_xml demo_fromstring s' = Ok m ->
      exists tree, demo_fromstring s' = inr tree /\ m = wx_of_root tree)).
Proof.
  split; [reflexivity|split; [reflexivity|]].
  apply (parse_xml_malformed demo_fromstring (demo_http_get "not xml")
           (cfg_default true None) (cfg_default true None) "KSMP" "not xml"
           "syntax error: line 1, column 0"); reflexivity.
Defined.

(** C6 (counterexample): an element without text, [<weather/>], is stored
    as [None], not as a string. *)
Lemma parse_value_none_counterexample :
  wx_of_root (Elem "current_observation" [] None [leaf "weather" None] None)
    !! "weather" = Some None.
Proof. reflexivity. Qed.

(** C6 (amended): every stored value is exactly the [text] ElementTree
    gives a direct child of the root with that tag, uncoerced: a string,
    or [None] for an element without text. *)
Theorem parse_value_is_child_text (tree : element) (k : string)
    (v : option string) (Hv : wx_of_root tree !! k = Some v) :
  exists c, In c (el_children tree) /\ el_tag c = k /\ el_text c = v.
Proof.
  rewrite wx_of_root_lookup in Hv.
  destruct (is_skipped k); [discriminate|].
  destruct (last_text_source _ _ _ _ Hv) as [H|H]; [discriminate|exact H].
Qed.

Lemma parse_value_is_child_text_witness :
  wx_of_root ksmp_root !! "weather" = Some (Some "Fair") /\
  exists c, In c (el_children ksmp_root) /\ el_tag c = "weather" /\
            el_text c = Some "Fair".
Proof.
  split; [reflexivity|].
  apply parse_value_is_child_text. reflexivity.
Defined.

(** ** Formatting *)

Lemma count_nl_app (a b : string) : count_nl (a ++ b) = count_nl a + count_nl b.
Proof.
  induction a as [|c a IH]; simpl; [reflexivity|]. rewrite IH. lia.
Qed.

(** Once resolved, the location and hence the URL are stable under the
    same configuration. *)
Lemma url_after_location (cfg : config) (raw : string) (st : nws_state) :
  _url cfg (snd (_location cfg raw st)) =
  (yarl_str (_service_url ++ "/" ++ fst (_location cfg raw st) ++ ".xml"),
   snd (_location cfg raw st)).
Proof.
  pose proof (location_stable cfg raw st) as H.
  destruct (_location cfg raw st) as [l st1]. simpl.
  unfold _url, _base_url. rewrite H. reflexivity.
Qed.

(** A missing field reads as the text ["None"]. *)
Lemma wx_format_missing (r : gmap string (option string)) (k : string) :
  In k wx_fields -> r !! k = None ->
  wx_format r = wx_format (<[k := Some "None"]> r).
Proof.
  intros Hk Hr. unfold wx_fields in Hk.
  repeat (destruct Hk as [<-|Hk]);
    [..|destruct Hk];
    unfold wx_format; rewrite lookup_insert_eq, Hr;
    repeat (rewrite lookup_insert_ne by discriminate); reflexivity.
Qed.

(** ** Claims on formatting and the whole handler *)

(** C7: a well-formed response whatever fields it lacks is answered with
    a message; every missing field is rendered as the placeholder
    ["None"], as if the field held that text. *)
Theorem missing_fields_render_none fromstring http_get (cfg cfg' : config)
    (raw s : string) (root : element)
    (Hget : http_get (fst (_url cfg (snd (_location cfg raw _reset_stored_values)))) = Ok s)
    (Hok : fromstring s = inr root) :
  weather_handler fromstring http_get cfg cfg' raw =
    Ok (fst (_message cfg' (snd (_location cfg raw _reset_stored_values))
                      (wx_format (wx_of_root root)))) /\
  (forall k, In k wx_fields -> wx_of_root root !! k = None ->
     wx_format (wx_of_root root) = wx_format (<[k := Some "None"]> (wx_of_root root))).
Proof.
  split.
  - rewrite weather_handler_eq. cbv zeta. rewrite Hget. cbn [bind].
    unfold _parse_xml at 1. rewrite Hok. cbn [bind].
    rewrite url_after_location. reflexivity.
  - intros k. apply wx_format_missing.
Qed.

Lemma missing_fields_render_none_witness :
  demo_http_get "<current_observation/>"
    (fst (_url (cfg_default false None)
      (snd (_location (cfg_default false None) "KSMP" _reset_stored_values))))
    = Ok "<current_observation/>" /\
  demo_fromstring "<current_observation/>" = inr (Elem "current_observation" [] None [] None) /\
  (weather_handler demo_fromstring (demo_http_get "<current_observation/>")
     (cfg_default false None) (cfg_default false None) "KSMP" =
   Ok (fst (_message (cfg_default false None)
        (snd (_location (cfg_default false None) "KSMP" _reset_stored_values))
        (wx_format (wx_of_root (Elem "current_observation" [] None [] None))))) /\
   (forall k, In k wx_fields ->
      wx_of_root (Elem "current_observation" [] None [] None) !! k = None ->
      wx_format (wx_of_root (Elem "current_observation" [] None [] None)) =
      wx_format (<[k := Some "None"]> (wx_of_root (Elem "current_observation" [] None [] None))))).
Proof.
  split; [reflexivity|split; [reflexivity|]].
  apply (missing_fields_render_none demo_fromstring
           (demo_http_get "<current_observation/>") (cfg_default false None)
           (cfg_default false None) "KSMP" "<current_observation/>"
           (Elem "current_observation" [] None [] None)); reflexivity.
Defined.

(** C8 (counterexample): the spec's record without link renders as seven
    lines, not eight. *)
Lemma format_eight_lines_counterexample :
  count_lines (fst (_message (cfg_default false None) _reset_stored_values
                             (wx_format ksmp_record))) = 7 /\
  count_lines (fst (_message (cfg_default false None) _reset_stored_values
                             (wx_format ksmp_record))) <> 8.
Proof. vm_compute. split; [reflexivity|discriminate]. Qed.

(** C8 (amended): with all eight fields present and [show_link] off the
    message is exactly the fixed template: station id and location share
    the first line, every line but the last ends with a backslash, seven
    lines in all when no value holds a newline, and no link section. *)
Theorem format_all_fields (cfg : config) (st : nws_state)
    (r : gmap string (option string)) (a b c d e f g h : string)
    (Hlink : show_link cfg = false)
    (H1 : r !! "station_id" = Some (Some a)) (H2 : r !! "location" = Some (Some b))
    (H3 : r !! "weather" = Some (Some c))
    (H4 : r !! "temperature_string" = Some (Some d))
    (H5 : r !! "relative_humidity" = Some (Some e))
    (H6 : r !! "wind_string" = Some (Some f))
    (H7 : r !! "dewpoint_string" = Some (Some g))
    (H8 : r !! "visibility_mi" = Some (Some h)) :
  fst (_message cfg st (wx_format r)) =
    "[" ++ a ++ "] Location: " ++ b ++ "\" ++ nl ++
    "Weather: " ++ c ++ "\" ++ nl ++
    "Temperature: " ++ d ++ "\" ++ nl ++
    "Relative Humidity: " ++ e ++ "\" ++ nl ++
    "Wind: " ++ f ++ "\" ++ nl ++
    "Dew Point: " ++ g ++ "\" ++ nl ++
    "Visibility (miles): " ++ h /\
  (count_nl a + count_nl b + count_nl c + count_nl d + count_nl e +
   count_nl f + count_nl g + count_nl h = 0 ->
   count_lines (fst (_message cfg st (wx_format r))) = 7).
Proof.
  assert (Hm : fst (_message cfg st (wx_format r)) = wx_template a b c d e f g h).
  { unfold _message. rewrite Hlink. simpl fst. unfold wx_format.
    rewrite H1, H2, H3, H4, H5, H6, H7, H8. reflexivity. }
  split; [exact Hm|].
  intros Hz. rewrite Hm. unfold count_lines, wx_template.
  rewrite !count_nl_app. simpl. lia.
Qed.

Lemma format_all_fields_witness :
  fst (_message (cfg_default false None) _reset_stored_values (wx_format ksmp_record)) =
    "[KSMP] Location: St. Paul\" ++ nl ++ "Weather: Fair\" ++ nl ++
    "Temperature: 72F\" ++ nl ++ "Relative Humidity: 40%\" ++ nl ++
    "Wind: Calm\" ++ nl ++ "Dew Point: 50F\" ++ nl ++
    "Visibility (miles): 10" /\
  (0 + 0 + 0 + 0 + 0 + 0 + 0 + 0 = 0 ->
   count_lines (fst (_message (cfg_default false None) _reset_stored_values
                              (wx_format ksmp_record))) = 7).
Proof.
  apply (format_all_fields (cfg_default false None) _reset_stored_values ksmp_record
           "KSMP" "St. Paul" "Fair" "72F" "40%" "Calm" "50F" "10");
    reflexivity.
Defined.



(** * Further properties of the plugin *)

(** ** Location cache *)

(** Calling [_location()] again under the same configuration returns the
    same location and leaves the state alone; so does [_url]. *)
Theorem location_idempotent_same_config (cfg : config) (raw : string)
    (st : nws_state) :
  _location cfg "" (snd (_location cfg raw st)) =
    (fst (_location cfg raw st), snd (_location cfg raw st)) /\
  _url cfg (snd (_location cfg raw st)) =
    (yarl_str (_service_url ++ "/" ++ fst (_location cfg raw st) ++ ".xml"),
     snd (_location cfg raw st)).
Proof.
  split; [|apply url_after_location].
  pose proof (location_stable cfg raw st) as H.
  destruct (_location cfg raw st) as [l st1]. exact H.
Qed.

(** The stored location never has surrounding whitespace: the reset
    state has none, and [_location], [_url] and [_message] keep it so;
    the location [_location] returns has none either. *)
Theorem stored_location_stripped (cfg : config) (raw content : string)
    (st : nws_state) (Hst : strip (_stored_location st) = _stored_location st) :
  strip (_stored_location _reset_stored_values) = _stored_location _reset_stored_values /\
  strip (fst (_location cfg raw st)) = fst (_location cfg raw st) /\
  strip (_stored_location (snd (_location cfg raw st))) =
    _stored_location (snd (_location cfg raw st)) /\
  strip (_stored_location (snd (_url cfg st))) = _stored_location (snd (_url cfg st)) /\
  strip (_stored_location (snd (_message cfg st content))) =
    _stored_location (snd (_message cfg st content)).
Proof.
  assert (Hl : forall r, strip (fst (_location cfg r st)) = fst (_location cfg r st) /\
                 strip (_stored_location (snd (_location cfg r st))) =
                 _stored_location (snd (_location cfg r st))).
  { intros r. unfold _location.
    destruct (String.eqb (_stored_location st) ""); simpl.
    - rewrite strip_idem. split; reflexivity.
    - split; exact Hst. }
  assert (Hu : strip (_stored_location (snd (_url cfg st))) =
               _stored_location (snd (_url cfg st))).
  { unfold _url, _base_url. destruct (Hl "") as [_ H].
    destruct (_location cfg "" st). exact H. }
  split; [reflexivity|split; [apply Hl|split; [apply Hl|split; [exact Hu|]]]].
  unfold _message. destruct (show_link cfg); [|exact Hst].
  destruct (_url cfg st) as [u st'] eqn:E. simpl in *. exact Hu.
Qed.

Lemma stored_location_stripped_witness :
  strip (_stored_location (mkState "" "" "")) = _stored_location (mkState "" "" "") /\
  (strip (_stored_location _reset_stored_values) = _stored_location _reset_stored_values /\
   strip (fst (_location (cfg_default true (Some " KMSP ")) "  " (mkState "" "" ""))) =
     fst (_location (cfg_default true (Some " KMSP ")) "  " (mkState "" "" "")) /\
   strip (_stored_location (snd (_location (cfg_default true (Some " KMSP ")) "  "
                                           (mkState "" "" "")))) =
     _stored_location (snd (_location (cfg_default true (Some " KMSP ")) "  "
                                      (mkState "" "" ""))) /\
   strip (_stored_location (snd (_url (cfg_default true (Some " KMSP ")) (mkState "" "" "")))) =
     _stored_location (snd (_url (cfg_default true (Some " KMSP ")) (mkState "" "" ""))) /\
   strip (_stored_location (snd (_message (cfg_default true (Some " KMSP "))
                                          (mkState "" "" "") "x"))) =
     _stored_location (snd (_message (cfg_default true (Some " KMSP "))
                                     (mkState "" "" "") "x"))).
Proof.
  split; [reflexivity|].
  apply stored_location_stripped. reflexivity.
Defined.

(** ** The option set *)

(** [_options] has each key at most once: ["lang"] with the stored
    language when one is set, and the stored units as a key with the
    empty value when they are set; units named ["lang"] overwrite the
    language. *)
Theorem options_entries (st : nws_state) :
  NoDup (map fst (_options st)) /\
  (forall k v, In (k, v) (_options st) <->
     (k = "lang" /\ v = _stored_language st /\ _stored_language st <> "" /\
      _stored_units st <> "lang") \/
     (k = _stored_units st /\ v = "" /\ _stored_units st <> "")).
Proof.
  destruct st as [lang loc units]. unfold _options. simpl.
  destruct (String.eqb_spec lang "") as [->|Hl];
  destruct (String.eqb_spec units "") as [->|Hu]; simpl.
  - split; [constructor|]. intros k v. split; [intros []|].
    intros [(_ & _ & H & _)|(_ & _ & H)]; congruence.
  - split; [apply NoDup_singleton|].
    intros k v. split.
    + intros [H|[]]. injection H as <- <-. right. auto.
    + intros [(_ & _ & H & _)|(-> & -> & _)]; [congruence|]. left. reflexivity.
  - split; [apply NoDup_singleton|].
    intros k v. split.
    + intros [H|[]]. injection H as <- <-. left. repeat split; auto; discriminate.
    + intros [(-> & -> & _)|(_ & _ & H)]; [left; reflexivity|congruence].
  - destruct (String.eqb_spec units "lang") as [->|Hul]; simpl.
    + split; [apply NoDup_singleton|].
      intros k v. split.
      * intros [H|[]]. injection H as <- <-. right. repeat split; discriminate.
      * intros [(_ & _ & _ & H)|(-> & -> & _)]; [congruence|]. left. reflexivity.
    + split.
      * apply NoDup_cons. split; [|apply NoDup_singleton].
        rewrite list_elem_of_singleton. congruence.
      * intros k v. split.
        -- intros [H|[H|[]]]; injection H as <- <-.
           ++ left. auto.
           ++ right. auto.
        -- intros [(-> & -> & _)|(-> & -> & _)]; [left|right; left]; reflexivity.
Qed.

(** ** The handler *)

(** A failed fetch ends the invocation with that error, before any
    parsing: the parser is never consulted. *)
Theorem fetch_error_propagates fromstring http_get (cfg cfg' : config)
    (raw : string) (e : exn)
    (Hget : http_get (fst (_url cfg (snd (_location cfg raw _reset_stored_values)))) = Err e) :
  forall fromstring', weather_handler fromstring http_get cfg cfg' raw = Err e /\
    weather_handler fromstring' http_get cfg cfg' raw = Err e.
Proof.
  intros fromstring'. rewrite !weather_handler_eq. cbv zeta. rewrite Hget.
  split; reflexivity.
Qed.

Lemma fetch_error_propagates_witness :
  demo_http_get_at "https://w1.weather.gov/xml/current_obs/KSTP.xml" "ksmp"
    (fst (_url (cfg_default false None)
       (snd (_location (cfg_default false None) "KSMP" _reset_stored_values))))
    = Err (HttpError "404 Not Found") /\
  weather_handler demo_fromstring
    (demo_http_get_at "https://w1.weather.gov/xml/current_obs/KSTP.xml" "ksmp")
    (cfg_default false None) (cfg_default false None) "KSMP" = Err (HttpError "404 Not Found") /\
  weather_handler (fun _ => inr ksmp_root)
    (demo_http_get_at "https://w1.weather.gov/xml/current_obs/KSTP.xml" "ksmp")
    (cfg_default false None) (cfg_default false None) "KSMP" = Err (HttpError "404 Not Found").
Proof.
  split; [reflexivity|].
  apply (fetch_error_propagates demo_fromstring
           (demo_http_get_at "https://w1.weather.gov/xml/current_obs/KSTP.xml" "ksmp")
           (cfg_default false None) (cfg_default false None) "KSMP"
           (HttpError "404 Not Found")); reflexivity.
Defined.



(** Whitespace around the command argument does not change the
    response. *)
Theorem handler_strips_argument fromstring http_get (cfg cfg' : config)
    (raw : string) :
  weather_handler fromstring http_get cfg cfg' raw =
  weather_handler fromstring http_get cfg cfg' (strip raw).
Proof.
  assert (H : _location cfg raw _reset_stored_values =
              _location cfg (strip raw) _reset_stored_values).
  { rewrite !location_fresh. rewrite strip_idem. reflexivity. }
  rewrite !weather_handler_eq. rewrite H. reflexivity.
Qed.

(** ** Configuration keys that are never read *)

(** [cfg] with its [show_image], [default_units] and [default_language]
    entries replaced. *)
Definition with_unused (cfg : config) (si : bool) (du dl : option string) : config :=
  mkConfig (show_link cfg) (default_location cfg) si du dl.

(** [show_image], [default_units] and [default_language] never affect the
    response. *)
Theorem handler_ignores_unused_config fromstring http_get (cfg cfg' : config)
    (raw : string) (si si' : bool) (du dl du' dl' : option string) :
  weather_handler fromstring http_get (with_unused cfg si du dl)
    (with_unused cfg' si' du' dl') raw =
  weather_handler fromstring http_get cfg cfg' raw.
Proof. reflexivity. Qed.

(** ** The observation record *)

Lemma last_text_is_Some (k : string) (cs : list element) :
  forall acc, is_Some (last_text k acc cs) <->
  is_Some acc \/ exists c, In c cs /\ el_tag c = k.
Proof.
  induction cs as [|c cs IH]; intros acc; simpl.
  - split; [auto|]. intros [H|[c [[] _]]]. exact H.
  - rewrite IH. destruct (String.eqb_spec (el_tag c) k) as [Hk|Hk].
    + split; [intros _; right; exists c; auto|intros _; left; eexists; reflexivity].
    + split.
      * intros [H|[c' [Hin Hc']]]; [left; exact H|right; exists c'; auto].
      * intros [H|[c' [[<-|Hin] Hc']]]; [left; exact H|congruence|].
        right. exists c'. auto.
Qed.

(** The keys of the record are exactly the tags of the root's direct
    children, less [image] and [observation_time]. *)
Theorem record_keys (tree : element) (k : string) :
  k ∈ dom (wx_of_root tree) <->
  is_skipped k = false /\ exists c, In c (el_children tree) /\ el_tag c = k.
Proof.
  rewrite elem_of_dom, wx_of_root_lookup.
  destruct (is_skipped k).
  - split; [intros [? H]; discriminate|intros [H _]; discriminate].
  - rewrite last_text_is_Some. split.
    + intros [[? H]|H]; [discriminate|auto].
    + intros [_ H]. right. exact H.
Qed.

(** The children's attributes, tails and subelements do not matter: two
    roots whose children agree in tag and text, in order, give the same
    record. *)
Theorem record_tag_text_only (t1 t2 : element)
    (Hcs : Forall2 (fun c d => el_tag c = el_tag d /\ el_text c = el_text d)
                   (el_children t1) (el_children t2)) :
  wx_of_root t1 = wx_of_root t2.
Proof.
  unfold wx_of_root. generalize (∅ : gmap string (option string)).
  induction Hcs as [|c d cs ds [Ht Hx] _ IH]; intros m; simpl; [reflexivity|].
  replace (parse_step m d) with (parse_step m c); [apply IH|].
  unfold parse_step. rewrite Ht, Hx. reflexivity.
Qed.

Lemma record_tag_text_only_witness :
  Forall2 (fun c d => el_tag c = el_tag d /\ el_text c = el_text d)
    (el_children ksmp_root)
    (el_children (Elem "current_observation" [("version", "1.0")] (Some " ")
       [Elem "image" [] None [leaf "url" (Some "x.png")] None;
        Elem "observation_time" [] (Some "Last Updated") [] (Some " ");
        Elem "station_id" [("src", "nws")] (Some "KSMP") [] None;
        Elem "weather" [] (Some "Fair") [leaf "note" (Some "n")] (Some " ")] None)) /\
  wx_of_root ksmp_root =
  wx_of_root (Elem "current_observation" [("version", "1.0")] (Some " ")
       [Elem "image" [] None [leaf "url" (Some "x.png")] None;
        Elem "observation_time" [] (Some "Last Updated") [] (Some " ");
        Elem "station_id" [("src", "nws")] (Some "KSMP") [] None;
        Elem "weather" [] (Some "Fair") [leaf "note" (Some "n")] (Some " ")] None).
Proof.
  assert (H : Forall2 (fun c d => el_tag c = el_tag d /\ el_text c = el_text d)
    (el_children ksmp_root)
    (el_children (Elem "current_observation" [("version", "1.0")] (Some " ")
       [Elem "image" [] None [leaf "url" (Some "x.png")] None;
        Elem "observation_time" [] (Some "Last Updated") [] (Some " ");
        Elem "station_id" [("src", "nws")] (Some "KSMP") [] None;
        Elem "weather" [] (Some "Fair") [leaf "note" (Some "n")] (Some " ")] None)))
    by (simpl; repeat constructor).
  split; [exact H|]. apply record_tag_text_only. exact H.
Defined.

(** ** The formatted content *)

(** A field whose text, if any, holds no newline. *)
Definition field_no_newline (r : gmap string (option string)) (k : string) : Prop :=
  match r !! k with
  | Some (Some v) => count_nl v = 0
  | _ => True
  end.

Lemma py_str_no_newline (r : gmap string (option string)) (k : string) :
  field_no_newline r k -> count_nl (py_str (r !! k)) = 0.
Proof.
  unfold field_no_newline. destruct (r !! k) as [[v|]|]; simpl; auto.
Qed.

(** The content has seven lines whenever no field text holds a newline,
    whatever fields are missing. *)
Theorem content_seven_lines (r : gmap string (option string))
    (Hr : Forall (field_no_newline r) wx_fields) :
  count_lines (wx_format r) = 7.
Proof.
  unfold wx_fields in Hr.
  repeat match goal with
         | H : Forall _ (_ :: _) |- _ =>
             let Hh := fresh "Hh" in inversion H as [|? ? Hh ?]; subst; clear H;
             apply py_str_no_newline in Hh
         end.
  unfold count_lines, wx_format, wx_template. rewrite !count_nl_app. simpl. lia.
Qed.

Lemma content_seven_lines_witness :
  Forall (field_no_newline (<["weather" := None]> ksmp_record)) wx_fields /\
  count_lines (wx_format (<["weather" := None]> ksmp_record)) = 7.
Proof.
  assert (H : Forall (field_no_newline (<["weather" := None]> ksmp_record)) wx_fields)
    by (unfold wx_fields; repeat constructor).
  split; [exact H|]. apply content_seven_lines. exact H.
Defined.

Lemma py_str_delete (r : gmap string (option string)) (k f : string) :
  r !! k = Some None -> py_str (delete k r !! f) = py_str (r !! f).
Proof.
  intros H. destruct (String.eqb_spec k f) as [<-|Hf].
  - rewrite lookup_delete_eq, H. reflexivity.
  - rewrite lookup_delete_ne by exact Hf. reflexivity.
Qed.

(** An element without text and a missing element render alike: the
    message cannot tell them apart. *)
Theorem content_empty_element_as_missing (r : gmap string (option string))
    (k : string) (Hk : r !! k = Some None) :
  wx_format r = wx_format (delete k r).
Proof.
  unfold wx_format. rewrite !(py_str_delete r k _ Hk). reflexivity.
Qed.

Lemma content_empty_element_as_missing_witness :
  (<["weather" := None]> ksmp_record) !! "weather" = Some None /\
  wx_format (<["weather" := None]> ksmp_record) =
  wx_format (delete "weather" (<["weather" := None]> ksmp_record)).
Proof.
  split; [reflexivity|]. apply content_empty_element_as_missing. reflexivity.
Defined.
